(** * peft.tuners.vera: the package initialiser

    A shallow embedding of [src/peft/tuners/vera/__init__.py]: the module
    body (five imports, the [__all__] list, the definition of the
    module-level [__getattr__]) and the attribute lookup on the loaded
    module, with the effects the statements have on the interpreter:
    the table of loaded modules and the namespace of the package. *)

From stdpp Require Import gmap strings list fin_maps.

(** ** Objects *)

(** A class object, identified by the module that defines it and its name. *)
Record pyclass := PyClass { cls_module : string; cls_qualname : string }.

(** The objects this module handles. [VList] is a list of [str], the only
    kind of list the module builds. *)
Inductive value :=
| VNone
| VStr (s : string)
| VList (items : list string)
| VClass (c : pyclass)
| VFunction (module qualname : string)
| VModule (fullname : string).

(** The module raises one kind of exception. *)
Inductive exn :=
| AttributeError (msg : string).

Definition message (e : exn) : string :=
  match e with AttributeError msg => msg end.

(** What a run leaves behind besides its result: import statements that were
    executed, capability predicates that were called, and entries into the
    module-level [__getattr__] hook. *)
Inductive event :=
| EvImport (fullname : string)
| EvCall (fn : string)
| EvFallback (name : string).

#[global] Instance pyclass_eq_dec : EqDecision pyclass.
Proof. solve_decision. Defined.
#[global] Instance value_eq_dec : EqDecision value.
Proof. solve_decision. Defined.
#[global] Instance exn_eq_dec : EqDecision exn.
Proof. solve_decision. Defined.
#[global] Instance event_eq_dec : EqDecision event.
Proof. solve_decision. Defined.

(** ** Interpreter state *)

(** [sys_modules] is the set of fully qualified names of the loaded modules;
    [globals] is the namespace of the package [peft.tuners.vera]. *)
Record interp := Interp {
  sys_modules : gset string;
  globals : gmap string value
}.

Inductive outcome (A : Type) :=
| Return (a : A)
| Raise (e : exn).
Arguments Return {A} a.
Arguments Raise {A} e.

(** Computations: state passing, an event log, and exceptions. *)
Definition M (A : Type) : Type := interp → outcome A * interp * list event.

Definition result_of {A} (r : outcome A * interp * list event) : outcome A := r.1.1.
Definition state_of {A} (r : outcome A * interp * list event) : interp := r.1.2.
Definition events_of {A} (r : outcome A * interp * list event) : list event := r.2.

#[global] Instance M_ret : MRet M := λ A a st, (Return a, st, []).

#[global] Instance M_bind : MBind M := λ A B k m st,
  match m st with
  | (Return a, st1, ev1) =>
      match k a st1 with
      | (r, st2, ev2) => (r, st2, ev1 ++ ev2)
      end
  | (Raise e, st1, ev1) => (Raise e, st1, ev1)
  end.

Definition raise {A} (e : exn) : M A := λ st, (Raise e, st, []).
Definition emit (ev : event) : M unit := λ st, (Return tt, st, [ev]).
Definition gets {A} (f : interp → A) : M A := λ st, (Return (f st), st, []).
Definition modify (f : interp → interp) : M unit := λ st, (Return tt, f st, []).

Definition get_global (k : string) : M (option value) :=
  gets (λ st, globals st !! k).
Definition set_global (k : string) (v : value) : M unit :=
  modify (λ st, Interp (sys_modules st) (<[k := v]> (globals st))).
Definition is_loaded (fullname : string) : M bool :=
  gets (λ st, bool_decide (fullname ∈ sys_modules st)).
Definition register_module (fullname : string) : M unit :=
  modify (λ st, Interp ({[fullname]} ∪ sys_modules st) (globals st)).

(** ** Names *)

(** The package lives in [src/peft/tuners/vera/__init__.py]. *)
Definition __name__ : string := "peft.tuners.vera".

Definition submodule (sub : string) : string := __name__ +:+ "." +:+ sub.

(** ** The import statements *)

(** Loading a module that is not the package's child: it is entered in the
    table of loaded modules; the package's namespace is not touched. *)
Definition import_module (fullname : string) : M unit :=
  emit (EvImport fullname) ;;
  register_module fullname.

(** Loading the child [.sub] of the package. An already loaded module is
    taken from the table. A fresh one is entered in the table and, as the
    import system does for every submodule it loads, bound under its short
    name in the namespace of the parent package. *)
Definition import_submodule (sub : string) : M unit :=
  emit (EvImport (submodule sub)) ;;
  cached ← is_loaded (submodule sub);
  if (cached : bool) then mret tt
  else
    register_module (submodule sub) ;;
    set_global sub (VModule (submodule sub)).

Arguments import_submodule : simpl never.

(** Short-circuit [and] on a boolean left operand: the right operand is
    evaluated only when the left one is true. *)
Definition py_and (a : bool) (b : M bool) : M bool :=
  if a then b else mret false.

(** ** Capability predicates and collaborators *)

(** The two predicates imported from [peft.import_utils]. Their bodies are
    not part of this package; a call is an event and an answer. *)
Record Capabilities := Caps {
  bnb_available : bool;
  bnb_4bit_available : bool
}.

Definition is_bnb_available (caps : Capabilities) : M bool :=
  emit (EvCall "is_bnb_available") ;; mret (bnb_available caps).

Definition is_bnb_4bit_available (caps : Capabilities) : M bool :=
  emit (EvCall "is_bnb_4bit_available") ;; mret (bnb_4bit_available caps).

(** Modelled from the spec: the sibling modules [config], [gptq], [layer],
    [model] and [bnb] are not in the source tree. Each supplies ready-made
    types: a configuration type, a quantization-aware linear type, a base
    adapter-layer abstraction and a concrete linear adapter layer, a model
    wrapper, and the 8-bit and 4-bit linear adapter types. They are taken as
    parameters. *)
Record Collaborators := {
  config_VeraConfig : pyclass;
  gptq_VeraQuantLinear : pyclass;
  layer_VeraLayer : pyclass;
  layer_VeraLinear : pyclass;
  model_VeraModel : pyclass;
  bnb_VeraLinear8bitLt : pyclass;
  bnb_VeraLinear4bit : pyclass
}.

(** Modelled from the spec: the collaborators with each type defined in the
    module it is imported from, under the name it is imported by. *)
Definition sibling_classes : Collaborators := {|
  config_VeraConfig := PyClass (submodule "config") "VeraConfig";
  gptq_VeraQuantLinear := PyClass (submodule "gptq") "VeraQuantLinear";
  layer_VeraLayer := PyClass (submodule "layer") "VeraLayer";
  layer_VeraLinear := PyClass (submodule "layer") "VeraLinear";
  model_VeraModel := PyClass (submodule "model") "VeraModel";
  bnb_VeraLinear8bitLt := PyClass (submodule "bnb") "VeraLinear8bitLt";
  bnb_VeraLinear4bit := PyClass (submodule "bnb") "VeraLinear4bit"
|}.

Section Vera.

Variable collab : Collaborators.

(** ** The module *)

(** <<
    def __getattr__(name):
        if (name == "VeraLinear8bitLt") and is_bnb_available():
            from .bnb import VeraLinear8bitLt
            return VeraLinear8bitLt
        if (name == "VeraLinear4bit") and is_bnb_4bit_available():
            from .bnb import VeraLinear4bit
            return VeraLinear4bit
        raise AttributeError(f"module {__name__} has no attribute {name}")
    >>
    The names the two import statements bind are local to the call. *)
Definition __getattr__ (caps : Capabilities) (name : string) : M value :=
  c8 ← py_and (String.eqb name "VeraLinear8bitLt") (is_bnb_available caps);
  if (c8 : bool) then
    import_submodule "bnb" ;;
    let VeraLinear8bitLt := VClass (bnb_VeraLinear8bitLt collab) in
    mret VeraLinear8bitLt
  else
    c4 ← py_and (String.eqb name "VeraLinear4bit") (is_bnb_4bit_available caps);
    if (c4 : bool) then
      import_submodule "bnb" ;;
      let VeraLinear4bit := VClass (bnb_VeraLinear4bit collab) in
      mret VeraLinear4bit
    else
      raise (AttributeError
               ("module " +:+ __name__ +:+ " has no attribute " +:+ name)).

(** <<
    __all__ = ["VeraConfig", "VeraLayer", "VeraModel", "VeraLinear", "VeraQuantLinear"]
    >> *)
Definition __all__ : list string :=
  ["VeraConfig"; "VeraLayer"; "VeraModel"; "VeraLinear"; "VeraQuantLinear"].

(** The module body, statement by statement. *)
Definition exec_module : M unit :=
  (* from peft.import_utils import is_bnb_4bit_available, is_bnb_available *)
  import_module "peft.import_utils" ;;
  set_global "is_bnb_4bit_available"
             (VFunction "peft.import_utils" "is_bnb_4bit_available") ;;
  set_global "is_bnb_available"
             (VFunction "peft.import_utils" "is_bnb_available") ;;
  (* from .config import VeraConfig *)
  import_submodule "config" ;;
  set_global "VeraConfig" (VClass (config_VeraConfig collab)) ;;
  (* from .gptq import VeraQuantLinear *)
  import_submodule "gptq" ;;
  set_global "VeraQuantLinear" (VClass (gptq_VeraQuantLinear collab)) ;;
  (* from .layer import VeraLayer, VeraLinear *)
  import_submodule "layer" ;;
  set_global "VeraLayer" (VClass (layer_VeraLayer collab)) ;;
  set_global "VeraLinear" (VClass (layer_VeraLinear collab)) ;;
  (* from .model import VeraModel *)
  import_submodule "model" ;;
  set_global "VeraModel" (VClass (model_VeraModel collab)) ;;
  (* __all__ = [...] *)
  set_global "__all__" (VList __all__) ;;
  (* def __getattr__(name): ... *)
  set_global "__getattr__" (VFunction __name__ "__getattr__").

(** The state in which the module body starts: the package is entered in
    the table of loaded modules, next to the modules [pre] loaded before,
    and its namespace holds its name (of the attributes the import system
    sets, the only one the module reads). *)
Definition fresh_module (pre : gset string) : interp :=
  Interp ({[__name__]} ∪ pre) {["__name__" := VStr __name__]}.

(** [import peft.tuners.vera]: the state once the module body has run. *)
Definition loaded (pre : gset string) : interp :=
  state_of (exec_module (fresh_module pre)).

(** Attribute access [module.name]: the namespace first; on a miss the
    module-level [__getattr__], when the namespace defines one. *)
Definition module_getattr (caps : Capabilities) (name : string) : M value :=
  found ← get_global name;
  match found with
  | Some v => mret v
  | None =>
      hook ← get_global "__getattr__";
      match hook with
      | Some _ => emit (EvFallback name) ;; __getattr__ caps name
      | None =>
          raise (AttributeError
                   ("module '" +:+ __name__ +:+ "' has no attribute '"
                               +:+ name +:+ "'"))
      end
  end.

(** The declared public surface: the list bound to [__all__]. *)
Definition exported_names (st : interp) : option (list string) :=
  match globals st !! "__all__" with
  | Some (VList names) => Some names
  | _ => None
  end.

(** The operations the loaded module offers: an attribute access, and a
    direct call of the hook. *)
Inductive op :=
| Access (caps : Capabilities) (name : string)
| Hook (caps : Capabilities) (name : string).

Definition step (o : op) : M value :=
  match o with
  | Access caps name => module_getattr caps name
  | Hook caps name => __getattr__ caps name
  end.

Definition op_caps (o : op) : Capabilities :=
  match o with Access caps _ | Hook caps _ => caps end.

Definition op_name (o : op) : string :=
  match o with Access _ name | Hook _ name => name end.

(** The state after a sequence of operations, failed ones included. *)
Fixpoint run (ops : list op) (st : interp) : interp :=
  match ops with
  | [] => st
  | o :: rest => run rest (state_of (step o st))
  end.

(** The objects the eagerly imported collaborators supply. *)
Definition eager_supply : list value :=
  [VClass (config_VeraConfig collab); VClass (gptq_VeraQuantLinear collab);
   VClass (layer_VeraLayer collab); VClass (layer_VeraLinear collab);
   VClass (model_VeraModel collab)].

End Vera.

(** The error at the end of [__getattr__]. *)
Definition unknown_attribute (name : string) : exn :=
  AttributeError ("module " +:+ __name__ +:+ " has no attribute " +:+ name).

(** [part] occurs in [msg]. *)
Definition mentions (msg part : string) : Prop :=
  ∃ before after, msg = before +:+ part +:+ after.

Definition is_fallback (ev : event) : bool :=
  match ev with EvFallback _ => true | _ => false end.

(** Whether the hook was entered during a run. *)
Definition fallback_invoked (evs : list event) : bool := existsb is_fallback evs.

(** Whether an import statement for [.bnb] was executed during a run. *)
Definition imports_bnb (evs : list event) : bool :=
  bool_decide (EvImport (submodule "bnb") ∈ evs).

(** The state an import of [.bnb] leaves. *)
Definition with_bnb (st : interp) : interp :=
  if decide (submodule "bnb" ∈ sys_modules st) then st
  else Interp ({[submodule "bnb"]} ∪ sys_modules st)
              (<["bnb" := VModule (submodule "bnb")]> (globals st)).

Definition is_return {A} (r : outcome A) : bool :=
  match r with Return _ => true | Raise _ => false end.

(** A request resolves when the name is that of a deferred symbol and the
    predicate of that symbol answers true. *)
Definition resolves (caps : Capabilities) (name : string) : bool :=
  (String.eqb name "VeraLinear8bitLt" && bnb_available caps)
  || (String.eqb name "VeraLinear4bit" && bnb_4bit_available caps).

(** The names of the two deferred symbols. *)
Definition optional_names : list string := ["VeraLinear8bitLt"; "VeraLinear4bit"].

(** The names of the predicates called during a run, in order. *)
Definition calls (evs : list event) : list string :=
  omap (λ ev, match ev with EvCall fn => Some fn | _ => None end) evs.

(** Whether some operation of a sequence is a request that resolves. *)
Definition any_resolves (ops : list op) : bool :=
  existsb (λ o, resolves (op_caps o) (op_name o)) ops.



(** * Properties *)

(** ** The hook, case by case *)

Section Facts.

Variable collab : Collaborators.

Lemma import_bnb_cached st :
  submodule "bnb" ∈ sys_modules st →
  import_submodule "bnb" st = (Return tt, st, [EvImport (submodule "bnb")]).
Proof.
  intros Hin. unfold import_submodule, is_loaded, gets, emit, mbind, M_bind. cbn.
  rewrite bool_decide_eq_true_2 by exact Hin. reflexivity.
Qed.

Lemma import_bnb_fresh st :
  submodule "bnb" ∉ sys_modules st →
  import_submodule "bnb" st =
    (Return tt,
     Interp ({[submodule "bnb"]} ∪ sys_modules st)
            (<["bnb" := VModule (submodule "bnb")]> (globals st)),
     [EvImport (submodule "bnb")]).
Proof.
  intros Hout. unfold import_submodule, is_loaded, gets, emit, mbind, M_bind. cbn.
  rewrite bool_decide_eq_false_2 by exact Hout. reflexivity.
Qed.

Lemma import_bnb_run st :
  import_submodule "bnb" st = (Return tt, with_bnb st, [EvImport (submodule "bnb")]).
Proof.
  unfold with_bnb. destruct (decide _) as [Hin|Hout].
  - by apply import_bnb_cached.
  - by apply import_bnb_fresh.
Qed.

Lemma getattr_8bit caps st :
  __getattr__ collab caps "VeraLinear8bitLt" st =
    if bnb_available caps
    then (Return (VClass (bnb_VeraLinear8bitLt collab)), with_bnb st,
          [EvCall "is_bnb_available"; EvImport (submodule "bnb")])
    else (Raise (unknown_attribute "VeraLinear8bitLt"), st,
          [EvCall "is_bnb_available"]).
Proof.
  destruct caps as [[] b4];
    unfold __getattr__, py_and, is_bnb_available, emit, mbind, M_bind; cbn.
  - rewrite import_bnb_run. reflexivity.
  - reflexivity.
Qed.

Lemma getattr_4bit caps st :
  __getattr__ collab caps "VeraLinear4bit" st =
    if bnb_4bit_available caps
    then (Return (VClass (bnb_VeraLinear4bit collab)), with_bnb st,
          [EvCall "is_bnb_4bit_available"; EvImport (submodule "bnb")])
    else (Raise (unknown_attribute "VeraLinear4bit"), st,
          [EvCall "is_bnb_4bit_available"]).
Proof.
  destruct caps as [b8 []];
    unfold __getattr__, py_and, is_bnb_4bit_available, emit, mbind, M_bind; cbn.
  - rewrite import_bnb_run. reflexivity.
  - reflexivity.
Qed.

Lemma getattr_other caps name st :
  name ≠ "VeraLinear8bitLt" → name ≠ "VeraLinear4bit" →
  __getattr__ collab caps name st = (Raise (unknown_attribute name), st, []).
Proof.
  intros H8 H4. unfold __getattr__, py_and.
  apply String.eqb_neq in H8, H4. rewrite H8. cbn. rewrite H4. reflexivity.
Qed.

End Facts.

(** ** What an import of [.bnb] changes *)

Lemma with_bnb_loaded st : submodule "bnb" ∈ sys_modules (with_bnb st).
Proof.
  unfold with_bnb. case_decide as Hin; [done |].
  cbn. apply elem_of_union_l. by apply elem_of_singleton.
Qed.

Lemma with_bnb_idem st : with_bnb (with_bnb st) = with_bnb st.
Proof.
  pose proof (with_bnb_loaded st) as Hin.
  unfold with_bnb at 1. by rewrite decide_True.
Qed.

Lemma with_bnb_frame st : delete "bnb" (globals (with_bnb st)) = delete "bnb" (globals st).
Proof. unfold with_bnb. case_decide; [done | apply delete_insert_eq]. Qed.

Lemma with_bnb_lookup st k : k ≠ "bnb" → globals (with_bnb st) !! k = globals st !! k.
Proof.
  intros Hk. unfold with_bnb. case_decide; [done |].
  cbn. by rewrite lookup_insert_ne.
Qed.

Lemma with_bnb_modules st : sys_modules (with_bnb st) = {[submodule "bnb"]} ∪ sys_modules st.
Proof.
  unfold with_bnb. case_decide as Hin; [| done].
  symmetry. apply subseteq_union_1_L. by apply singleton_subseteq_l.
Qed.

(** ** Attribute access, case by case *)

Section Access.

Variable collab : Collaborators.

Lemma access_bound caps name v st :
  globals st !! name = Some v →
  module_getattr collab caps name st = (Return v, st, []).
Proof.
  intros Hv. unfold module_getattr, get_global, gets, mbind, M_bind.
  cbn. by rewrite Hv.
Qed.

Lemma access_unbound caps name h st :
  globals st !! name = None →
  globals st !! "__getattr__" = Some h →
  module_getattr collab caps name st =
    (result_of (__getattr__ collab caps name st),
     state_of (__getattr__ collab caps name st),
     EvFallback name :: events_of (__getattr__ collab caps name st)).
Proof.
  intros Hn Hh. unfold module_getattr, get_global, gets, emit, mbind, M_bind.
  cbn. rewrite Hn, Hh.
  by destruct (__getattr__ collab caps name st) as [[[w|e] st'] evs].
Qed.

(** A call of the hook leaves the state as it was or as an import of
    [.bnb] leaves it. *)
Lemma getattr_state caps name st :
  state_of (__getattr__ collab caps name st) = st ∨
  state_of (__getattr__ collab caps name st) = with_bnb st.
Proof.
  destruct (decide (name = "VeraLinear8bitLt")) as [->|H8].
  { rewrite getattr_8bit. destruct (bnb_available caps); auto. }
  destruct (decide (name = "VeraLinear4bit")) as [->|H4].
  { rewrite getattr_4bit. destruct (bnb_4bit_available caps); auto. }
  left. by rewrite getattr_other.
Qed.

Lemma access_state caps name st :
  state_of (module_getattr collab caps name st) = st ∨
  state_of (module_getattr collab caps name st) = with_bnb st.
Proof.
  unfold module_getattr, get_global, gets, emit, mbind, M_bind. cbn.
  destruct (globals st !! name) as [found|]; [by left |].
  destruct (globals st !! "__getattr__") as [hook|]; [| by left].
  pose proof (getattr_state caps name st) as Hs.
  destruct (__getattr__ collab caps name st) as [[[w|e] st'] evs]; exact Hs.
Qed.

Lemma step_state o st :
  state_of (step collab o st) = st ∨ state_of (step collab o st) = with_bnb st.
Proof. destruct o; [apply access_state | apply getattr_state]. Qed.

(** No sequence of operations rebinds a name other than [bnb]. *)
Lemma run_frame ops st k :
  k ≠ "bnb" → globals (run collab ops st) !! k = globals st !! k.
Proof.
  intros Hk. revert st. induction ops as [|o ops IH]; intros st; [done |].
  cbn. rewrite IH. destruct (step_state o st) as [-> | ->]; [done |].
  by apply with_bnb_lookup.
Qed.

(** ** The namespace after loading *)

Lemma import_submodule_run sub st :
  import_submodule sub st =
    (Return tt,
     (if bool_decide (submodule sub ∈ sys_modules st) then st
      else Interp ({[submodule sub]} ∪ sys_modules st)
                  (<[sub := VModule (submodule sub)]> (globals st))),
     [EvImport (submodule sub)]).
Proof.
  unfold import_submodule, is_loaded, gets, emit, mbind, M_bind. cbn.
  by destruct (bool_decide _).
Qed.

Lemma exec_module_returns pre :
  result_of (exec_module collab (fresh_module pre)) = Return tt.
Proof.
  unfold exec_module, import_module, set_global, register_module, modify, emit,
    mbind, M_bind. cbn.
  repeat (rewrite import_submodule_run; cbn). reflexivity.
Qed.

Lemma exec_module_events pre :
  events_of (exec_module collab (fresh_module pre)) =
    [EvImport "peft.import_utils"; EvImport (submodule "config");
     EvImport (submodule "gptq"); EvImport (submodule "layer");
     EvImport (submodule "model")].
Proof.
  unfold exec_module, import_module, set_global, register_module, modify, emit,
    mbind, M_bind. cbn.
  repeat (rewrite import_submodule_run; cbn). reflexivity.
Qed.

End Access.

Section Loaded.

Variable collab : Collaborators.

(** Unfolds the module body; the four imports of submodules are split on
    whether the submodule was loaded before. *)
Ltac load_cases :=
  unfold loaded, exec_module, import_module, set_global, register_module,
    modify, emit, mbind, M_bind; cbn;
  repeat (rewrite import_submodule_run; cbn; case_bool_decide; cbn).

Lemma loaded_all pre :
  globals (loaded collab pre) !! "__all__" = Some (VList __all__).
Proof. load_cases; by simplify_map_eq. Qed.

Lemma loaded_hook pre :
  globals (loaded collab pre) !! "__getattr__" =
    Some (VFunction __name__ "__getattr__").
Proof. load_cases; by simplify_map_eq. Qed.

Lemma loaded_bindings pre :
  let ns := globals (loaded collab pre) in
  ns !! "VeraConfig" = Some (VClass (config_VeraConfig collab)) ∧
  ns !! "VeraLayer" = Some (VClass (layer_VeraLayer collab)) ∧
  ns !! "VeraLinear" = Some (VClass (layer_VeraLinear collab)) ∧
  ns !! "VeraModel" = Some (VClass (model_VeraModel collab)) ∧
  ns !! "VeraQuantLinear" = Some (VClass (gptq_VeraQuantLinear collab)).
Proof. cbv zeta. repeat split; load_cases; by simplify_map_eq. Qed.

Lemma loaded_eager pre name :
  name ∈ __all__ →
  ∃ v, globals (loaded collab pre) !! name = Some v ∧ v ∈ eager_supply collab.
Proof.
  unfold __all__, eager_supply. intros Hin.
  destruct (loaded_bindings pre) as (Hc & Hl & Hn & Hm & Hq).
  repeat (apply elem_of_cons in Hin as [-> | Hin]);
    [.. | by apply elem_of_nil in Hin];
    eexists; (split; [eassumption |]); apply list_elem_of_In; cbn; auto 10.
Qed.

Lemma loaded_optional pre name :
  name ∈ optional_names → globals (loaded collab pre) !! name = None.
Proof.
  unfold optional_names. intros Hin.
  repeat (apply elem_of_cons in Hin as [-> | Hin]);
    [.. | by apply elem_of_nil in Hin];
    load_cases; by simplify_map_eq.
Qed.

Lemma loaded_bnb pre :
  submodule "bnb" ∈ sys_modules (loaded collab pre) ↔ submodule "bnb" ∈ pre.
Proof.
  load_cases;
    (rewrite !elem_of_union, !elem_of_singleton;
     split; intros H'; [| tauto]; repeat destruct H' as [H'|H']; done).
Qed.

(** In the loaded module the deferred names are not in the namespace, so
    an access to one of them enters the hook. *)
Lemma access_optional_enters_hook pre ops caps name :
  name ∈ optional_names →
  module_getattr collab caps name (run collab ops (loaded collab pre)) =
    (result_of (__getattr__ collab caps name (run collab ops (loaded collab pre))),
     state_of (__getattr__ collab caps name (run collab ops (loaded collab pre))),
     EvFallback name
       :: events_of (__getattr__ collab caps name
                       (run collab ops (loaded collab pre)))).
Proof.
  intros Hin.
  assert (Hne : name ≠ "bnb").
  { intros ->. unfold optional_names in Hin.
    repeat (apply elem_of_cons in Hin as [Hin | Hin]; [discriminate |]).
    by apply elem_of_nil in Hin. }
  apply access_unbound with (h := VFunction __name__ "__getattr__").
  - rewrite run_frame by exact Hne. by apply loaded_optional.
  - rewrite run_frame by discriminate. apply loaded_hook.
Qed.

End Loaded.

(** ** Success and failure of the hook *)

Lemma getattr_resolves collab caps name st :
  is_return (result_of (__getattr__ collab caps name st)) = resolves caps name ∧
  imports_bnb (events_of (__getattr__ collab caps name st)) = resolves caps name ∧
  state_of (__getattr__ collab caps name st) =
    (if resolves caps name then with_bnb st else st).
Proof.
  unfold resolves.
  destruct (decide (name = "VeraLinear8bitLt")) as [->|H8].
  { rewrite getattr_8bit. by destruct (bnb_available caps). }
  destruct (decide (name = "VeraLinear4bit")) as [->|H4].
  { rewrite getattr_4bit. by destruct (bnb_4bit_available caps). }
  rewrite getattr_other by done.
  apply String.eqb_neq in H8, H4. by rewrite H8, H4.
Qed.

Lemma getattr_raises collab caps name st e :
  result_of (__getattr__ collab caps name st) = Raise e → e = unknown_attribute name.
Proof.
  destruct (decide (name = "VeraLinear8bitLt")) as [->|H8].
  { rewrite getattr_8bit. destruct (bnb_available caps); cbn; congruence. }
  destruct (decide (name = "VeraLinear4bit")) as [->|H4].
  { rewrite getattr_4bit. destruct (bnb_4bit_available caps); cbn; congruence. }
  rewrite getattr_other by done. cbn. congruence.
Qed.

Lemma not_optional name :
  name ∉ optional_names ↔ name ≠ "VeraLinear8bitLt" ∧ name ≠ "VeraLinear4bit".
Proof.
  unfold optional_names. rewrite !not_elem_of_cons.
  pose proof (not_elem_of_nil name). tauto.
Qed.

(** ** The two deferred symbols *)

(** C1. Requesting ["VeraLinear8bitLt"]: when [is_bnb_available] answers
    true the hook runs the import of [.bnb], which is loaded afterwards, and
    returns the [VeraLinear8bitLt] type of that module; when it answers
    false the hook raises the unknown-attribute error, the one every other
    unresolved name gets, imports nothing and leaves the state alone. *)
Theorem getattr_VeraLinear8bitLt collab caps st :
  let r := __getattr__ collab caps "VeraLinear8bitLt" st in
  if bnb_available caps
  then result_of r = Return (VClass (bnb_VeraLinear8bitLt collab))
       ∧ imports_bnb (events_of r) = true
       ∧ submodule "bnb" ∈ sys_modules (state_of r)
  else result_of r = Raise (unknown_attribute "VeraLinear8bitLt")
       ∧ message (unknown_attribute "VeraLinear8bitLt") =
           "module peft.tuners.vera has no attribute VeraLinear8bitLt"
       ∧ imports_bnb (events_of r) = false
       ∧ state_of r = st.
Proof.
  cbv zeta. rewrite getattr_8bit. destruct (bnb_available caps).
  - split; [reflexivity |]. split; [reflexivity |]. apply with_bnb_loaded.
  - repeat split.
Qed.

(** C4. Requesting ["VeraLinear4bit"]: when [is_bnb_4bit_available] answers
    true the hook runs the import of [.bnb], which is loaded afterwards, and
    returns the [VeraLinear4bit] type of that module; when it answers false
    the hook raises the unknown-attribute error, imports nothing and leaves
    the state alone. *)
Theorem getattr_VeraLinear4bit collab caps st :
  let r := __getattr__ collab caps "VeraLinear4bit" st in
  if bnb_4bit_available caps
  then result_of r = Return (VClass (bnb_VeraLinear4bit collab))
       ∧ imports_bnb (events_of r) = true
       ∧ submodule "bnb" ∈ sys_modules (state_of r)
  else result_of r = Raise (unknown_attribute "VeraLinear4bit")
       ∧ message (unknown_attribute "VeraLinear4bit") =
           "module peft.tuners.vera has no attribute VeraLinear4bit"
       ∧ imports_bnb (events_of r) = false
       ∧ state_of r = st.
Proof.
  cbv zeta. rewrite getattr_4bit. destruct (bnb_4bit_available caps) eqn:Hcap.
  - pose proof (with_bnb_loaded st) as Hin. auto.
  - auto.
Qed.

(** C2. For every name other than the two deferred ones the hook raises the
    unknown-attribute error, whatever the two predicates answer; it calls
    neither predicate, imports nothing and leaves the state alone. *)
Theorem getattr_unknown_name collab caps name st :
  name ∉ optional_names →
  __getattr__ collab caps name st = (Raise (unknown_attribute name), st, []).
Proof.
  intros Hout. apply not_optional in Hout as [H8 H4].
  by apply getattr_other.
Qed.

Lemma getattr_unknown_name_witness :
  ("NotARealSymbol" ∉ optional_names) ∧
  (__getattr__ sibling_classes (Caps true true) "NotARealSymbol"
               (loaded sibling_classes ∅) =
     (Raise (AttributeError "module peft.tuners.vera has no attribute NotARealSymbol"),
      loaded sibling_classes ∅, [])).
Proof.
  assert (Hout : "NotARealSymbol" ∉ optional_names).
  { apply not_optional. split; discriminate. }
  split; [exact Hout |].
  exact (getattr_unknown_name sibling_classes (Caps true true) "NotARealSymbol"
           (loaded sibling_classes ∅) Hout).
Defined.

(** C9. Each deferred symbol is gated by its own predicate alone: a request
    for ["VeraLinear8bitLt"] runs the same way (result, state, events)
    whatever [is_bnb_4bit_available] would answer, and a request for
    ["VeraLinear4bit"] runs the same way whatever [is_bnb_available] would
    answer. *)
Theorem optional_symbols_gated_separately collab b8 b4 other st :
  (__getattr__ collab (Caps b8 other) "VeraLinear8bitLt" st =
     __getattr__ collab (Caps b8 b4) "VeraLinear8bitLt" st) ∧
  (__getattr__ collab (Caps other b4) "VeraLinear4bit" st =
     __getattr__ collab (Caps b8 b4) "VeraLinear4bit" st).
Proof. split; [by rewrite !getattr_8bit | by rewrite !getattr_4bit]. Qed.

(** ** The error message *)

Lemma append_empty_r (s : string) : s +:+ "" = s.
Proof.
  induction s as [|c s IH]; [reflexivity |].
  change (String c (s +:+ "") = String c s). by rewrite IH.
Qed.

Lemma unknown_attribute_mentions name :
  mentions (message (unknown_attribute name)) __name__ ∧
  mentions (message (unknown_attribute name)) name.
Proof.
  split.
  - exists "module ", (" has no attribute " +:+ name). reflexivity.
  - exists ("module " +:+ __name__ +:+ " has no attribute "), "".
    rewrite append_empty_r. reflexivity.
Qed.

(** C5. Whenever the hook fails, the message of the error it raises is
    ["module peft.tuners.vera has no attribute "] followed by the requested
    name: it contains the name of the module and the requested name. *)
Theorem getattr_error_names_module_and_attribute collab caps name st e :
  result_of (__getattr__ collab caps name st) = Raise e →
  mentions (message e) __name__ ∧ mentions (message e) name ∧
  message e = "module peft.tuners.vera has no attribute " +:+ name.
Proof.
  intros Hraise. apply getattr_raises in Hraise. subst e.
  destruct (unknown_attribute_mentions name) as [Hmod Hattr].
  repeat split; assumption.
Qed.

Lemma getattr_error_names_module_and_attribute_witness :
  result_of (__getattr__ sibling_classes (Caps false true) "VeraLinear8bitLt"
                         (loaded sibling_classes ∅)) =
    Raise (AttributeError "module peft.tuners.vera has no attribute VeraLinear8bitLt")
  ∧ (mentions "module peft.tuners.vera has no attribute VeraLinear8bitLt"
              "peft.tuners.vera"
     ∧ mentions "module peft.tuners.vera has no attribute VeraLinear8bitLt"
                "VeraLinear8bitLt"
     ∧ "module peft.tuners.vera has no attribute VeraLinear8bitLt" =
         "module peft.tuners.vera has no attribute " +:+ "VeraLinear8bitLt").
Proof.
  assert (Hraise :
    result_of (__getattr__ sibling_classes (Caps false true) "VeraLinear8bitLt"
                           (loaded sibling_classes ∅)) =
      Raise (AttributeError
               "module peft.tuners.vera has no attribute VeraLinear8bitLt")).
  { rewrite getattr_8bit. reflexivity. }
  split; [exact Hraise |].
  exact (getattr_error_names_module_and_attribute sibling_classes
           (Caps false true) "VeraLinear8bitLt" (loaded sibling_classes ∅) _ Hraise).
Defined.

(** ** Eager exports *)

(** C3. Loading the module succeeds, and from then on (after any sequence
    of accesses and hook calls) an access to a name of the eager export list
    finds it in the namespace: it returns an object other than [None], one
    of those the collaborators supplied, the hook is not entered, and the
    state is unchanged. *)
Theorem eager_names_resolve_directly collab pre ops caps name :
  name ∈ __all__ →
  result_of (exec_module collab (fresh_module pre)) = Return tt ∧
  ∃ v,
    module_getattr collab caps name (run collab ops (loaded collab pre)) =
      (Return v, run collab ops (loaded collab pre), []) ∧
    v ≠ VNone ∧
    v ∈ eager_supply collab ∧
    fallback_invoked
      (events_of (module_getattr collab caps name
                    (run collab ops (loaded collab pre)))) = false.
Proof.
  intros Hin. split; [apply exec_module_returns |].
  assert (Hne : name ≠ "bnb").
  { intros ->. unfold __all__ in Hin.
    repeat (apply elem_of_cons in Hin as [Hin | Hin]; [discriminate |]).
    by apply elem_of_nil in Hin. }
  destruct (loaded_eager collab pre name Hin) as (v & Hv & Hsup).
  assert (Hrun : globals (run collab ops (loaded collab pre)) !! name = Some v).
  { by rewrite run_frame. }
  exists v. rewrite (access_bound collab caps name v _ Hrun).
  repeat split; [| exact Hsup].
  intros ->. unfold eager_supply in Hsup.
  repeat (apply elem_of_cons in Hsup as [Hsup | Hsup]; [discriminate |]).
  by apply elem_of_nil in Hsup.
Qed.

Lemma eager_names_resolve_directly_witness :
  ("VeraLinear" ∈ __all__) ∧
  result_of (exec_module sibling_classes (fresh_module ∅)) = Return tt ∧
  ∃ v,
    module_getattr sibling_classes (Caps false false) "VeraLinear"
      (run sibling_classes [Access (Caps true true) "VeraLinear4bit"]
           (loaded sibling_classes ∅)) =
      (Return v,
       run sibling_classes [Access (Caps true true) "VeraLinear4bit"]
           (loaded sibling_classes ∅), []) ∧
    v ≠ VNone ∧
    v ∈ eager_supply sibling_classes ∧
    fallback_invoked
      (events_of (module_getattr sibling_classes (Caps false false) "VeraLinear"
                    (run sibling_classes [Access (Caps true true) "VeraLinear4bit"]
                         (loaded sibling_classes ∅)))) = false.
Proof.
  assert (Hin : "VeraLinear" ∈ __all__).
  { apply list_elem_of_In. cbn. auto 10. }
  split; [exact Hin |].
  exact (eager_names_resolve_directly sibling_classes ∅
           [Access (Caps true true) "VeraLinear4bit"] (Caps false false)
           "VeraLinear" Hin).
Defined.

(** ** When [.bnb] is imported *)

Lemma imports_bnb_after_fallback name evs :
  imports_bnb (EvFallback name :: evs) = imports_bnb evs.
Proof.
  unfold imports_bnb. apply bool_decide_ext.
  rewrite elem_of_cons. split; [| by right].
  intros [Heq | Hin]; [discriminate | exact Hin].
Qed.

(** An operation on the module imports [.bnb] only if its request resolves,
    and never when it fails. *)
Lemma step_imports collab o st :
  imports_bnb (events_of (step collab o st))
    && negb (resolves (op_caps o) (op_name o)
             && is_return (result_of (step collab o st))) = false.
Proof.
  destruct o as [caps name | caps name]; cbn [step op_caps op_name].
  - destruct (globals st !! name) as [v|] eqn:Hname.
    { by rewrite (access_bound collab caps name v st Hname). }
    destruct (globals st !! "__getattr__") as [h|] eqn:Hhook.
    + rewrite (access_unbound collab caps name h st Hname Hhook).
      change (imports_bnb (EvFallback name
                             :: events_of (__getattr__ collab caps name st))
              && negb (resolves caps name
                       && is_return (result_of (__getattr__ collab caps name st)))
              = false).
      rewrite imports_bnb_after_fallback.
      destruct (getattr_resolves collab caps name st) as (-> & -> & _).
      by destruct (resolves caps name).
    + unfold module_getattr, get_global, gets, mbind, M_bind. cbn.
      by rewrite Hname, Hhook.
  - destruct (getattr_resolves collab caps name st) as (-> & -> & _).
    by destruct (resolves caps name).
Qed.

(** C6. The import of [.bnb] is run only in a resolution that succeeds.
    The module body does not run it, and loading the module leaves [.bnb]
    loaded only if it was loaded before. A call of the hook runs it exactly
    when the name is that of a deferred symbol whose predicate answers true,
    which is exactly when the call returns; a call that fails leaves the
    state alone. No access and no hook call that fails, and none whose
    request does not resolve, runs it. *)
Theorem bnb_imported_only_on_resolution collab :
  (∀ pre,
     imports_bnb (events_of (exec_module collab (fresh_module pre))) = false ∧
     (submodule "bnb" ∈ sys_modules (loaded collab pre) ↔ submodule "bnb" ∈ pre)) ∧
  (∀ caps name st,
     imports_bnb (events_of (__getattr__ collab caps name st)) = resolves caps name ∧
     is_return (result_of (__getattr__ collab caps name st)) = resolves caps name ∧
     state_of (__getattr__ collab caps name st) =
       (if resolves caps name then with_bnb st else st)) ∧
  (∀ o st,
     imports_bnb (events_of (step collab o st))
       && negb (resolves (op_caps o) (op_name o)
                && is_return (result_of (step collab o st))) = false).
Proof.
  split; [| split].
  - intros pre. split; [| apply loaded_bnb].
    rewrite exec_module_events. reflexivity.
  - intros caps name st.
    destruct (getattr_resolves collab caps name st) as (Hret & Himp & Hst).
    auto.
  - intros o st. apply step_imports.
Qed.

(** ** Determinism and the state *)

Lemma getattr_result_stateless collab caps name st1 st2 :
  result_of (__getattr__ collab caps name st1) =
    result_of (__getattr__ collab caps name st2) ∧
  events_of (__getattr__ collab caps name st1) =
    events_of (__getattr__ collab caps name st2).
Proof.
  destruct (decide (name = "VeraLinear8bitLt")) as [->|H8].
  { rewrite !getattr_8bit. by destruct (bnb_available caps). }
  destruct (decide (name = "VeraLinear4bit")) as [->|H4].
  { rewrite !getattr_4bit. by destruct (bnb_4bit_available caps). }
  by rewrite !getattr_other.
Qed.

(** C7, as the code has it. The hook is deterministic and keeps no state
    of its own: for a given name and given answers of the two predicates
    the result and the events are the same in every state. A call that
    fails leaves the state as it was. A call that succeeds changes it by
    the import of [.bnb] and by nothing else: [.bnb] is entered in the table
    of loaded modules, and when it was not loaded before, the name [bnb] is
    bound in the namespace of the package; every other binding of the
    namespace stays. The import is one-time: the same call repeated changes
    nothing more. *)
Theorem getattr_stateless_up_to_import collab caps name st st2 :
  result_of (__getattr__ collab caps name st) =
    result_of (__getattr__ collab caps name st2) ∧
  events_of (__getattr__ collab caps name st) =
    events_of (__getattr__ collab caps name st2) ∧
  state_of (__getattr__ collab caps name st) =
    (if is_return (result_of (__getattr__ collab caps name st))
     then with_bnb st else st) ∧
  sys_modules (state_of (__getattr__ collab caps name st)) =
    (if is_return (result_of (__getattr__ collab caps name st))
     then {[submodule "bnb"]} ∪ sys_modules st else sys_modules st) ∧
  delete "bnb" (globals (state_of (__getattr__ collab caps name st))) =
    delete "bnb" (globals st) ∧
  state_of (__getattr__ collab caps name
              (state_of (__getattr__ collab caps name st))) =
    state_of (__getattr__ collab caps name st).
Proof.
  destruct (getattr_result_stateless collab caps name st st2) as [Hres Hev].
  destruct (getattr_resolves collab caps name st) as (Hret & _ & Hst).
  rewrite Hret.
  assert (Hst' : ∀ s, state_of (__getattr__ collab caps name s) =
                      if resolves caps name then with_bnb s else s).
  { intros s. by destruct (getattr_resolves collab caps name s) as (_ & _ & ?). }
  rewrite !Hst'.
  destruct (resolves caps name).
  - rewrite with_bnb_idem, with_bnb_frame, with_bnb_modules. by repeat split.
  - by repeat split.
Qed.

(** C7, as stated, fails: in the freshly loaded module, a request for
    ["VeraLinear8bitLt"] with the 8-bit backend available changes the
    namespace of the package, which gains the binding [bnb]. *)
Lemma getattr_binds_bnb_in_namespace :
  globals (loaded sibling_classes ∅) !! "bnb" = None ∧
  globals (state_of (__getattr__ sibling_classes (Caps true false)
                       "VeraLinear8bitLt" (loaded sibling_classes ∅))) !! "bnb" =
    Some (VModule "peft.tuners.vera.bnb") ∧
  globals (state_of (__getattr__ sibling_classes (Caps true false)
                       "VeraLinear8bitLt" (loaded sibling_classes ∅))) ≠
    globals (loaded sibling_classes ∅).
Proof.
  assert (Hbefore : globals (loaded sibling_classes ∅) !! "bnb" = None)
    by (vm_compute; reflexivity).
  assert (Hafter :
    globals (state_of (__getattr__ sibling_classes (Caps true false)
                         "VeraLinear8bitLt" (loaded sibling_classes ∅))) !! "bnb" =
      Some (VModule "peft.tuners.vera.bnb"))
    by (vm_compute; reflexivity).
  split; [exact Hbefore |]. split; [exact Hafter |].
  intros Heq. rewrite Heq, Hbefore in Hafter. discriminate.
Qed.

(** ** The export list *)

Lemma run_exported collab pre ops :
  exported_names (run collab ops (loaded collab pre)) = Some __all__.
Proof.
  unfold exported_names. rewrite run_frame by discriminate.
  by rewrite loaded_all.
Qed.

(** C8. [__all__] holds exactly the five names [VeraConfig], [VeraLayer],
    [VeraLinear], [VeraModel] and [VeraQuantLinear]. The module body binds
    it, and after every sequence of accesses and hook calls it is bound to
    the same list; each of the five names stays bound to the type its
    collaborator supplied. *)
Theorem all_is_fixed collab pre ops :
  __all__ ≡ₚ ["VeraConfig"; "VeraLayer"; "VeraLinear"; "VeraModel";
              "VeraQuantLinear"] ∧
  exported_names (loaded collab pre) = Some __all__ ∧
  exported_names (run collab ops (loaded collab pre)) = Some __all__ ∧
  globals (run collab ops (loaded collab pre)) !! "VeraConfig" =
    Some (VClass (config_VeraConfig collab)) ∧
  globals (run collab ops (loaded collab pre)) !! "VeraLayer" =
    Some (VClass (layer_VeraLayer collab)) ∧
  globals (run collab ops (loaded collab pre)) !! "VeraLinear" =
    Some (VClass (layer_VeraLinear collab)) ∧
  globals (run collab ops (loaded collab pre)) !! "VeraModel" =
    Some (VClass (model_VeraModel collab)) ∧
  globals (run collab ops (loaded collab pre)) !! "VeraQuantLinear" =
    Some (VClass (gptq_VeraQuantLinear collab)).
Proof.
  split.
  { unfold __all__. do 2 apply perm_skip. apply perm_swap. }
  split; [apply (run_exported collab pre []) |].
  split; [apply run_exported |].
  rewrite !run_frame by discriminate.
  apply loaded_bindings.
Qed.

(** C10. Neither deferred name is in [__all__], and after every sequence
    of accesses and hook calls, whatever the predicates answered in them,
    the export list is still [__all__] and neither deferred name is bound in
    the namespace. *)
Theorem optional_names_not_exported collab pre ops :
  Forall (λ name,
            (name ∉ __all__) ∧
            (globals (run collab ops (loaded collab pre)) !! name = None))
         optional_names ∧
  exported_names (run collab ops (loaded collab pre)) = Some __all__.
Proof.
  split; [| apply run_exported].
  apply Forall_forall. intros name Hin. split.
  - unfold optional_names in Hin. unfold __all__.
    repeat (apply elem_of_cons in Hin as [-> | Hin]);
      [.. | by apply elem_of_nil in Hin];
      rewrite !not_elem_of_cons; repeat split; try discriminate;
      apply not_elem_of_nil.
  - rewrite run_frame.
    + by apply loaded_optional.
    + intros ->. unfold optional_names in Hin.
      repeat (apply elem_of_cons in Hin as [Hin | Hin]; [discriminate |]).
      by apply elem_of_nil in Hin.
Qed.

(** * Further properties of the module *)

(** ** What loading the module does *)

Section Body.

Variable collab : Collaborators.






End Body.

(** ** The states the loaded module can reach *)

Section Reachable.

Variable collab : Collaborators.

Lemma resolves_optional caps name :
  resolves caps name = true → name ∈ optional_names.
Proof.
  unfold resolves, optional_names. intros Hres.
  apply orb_true_iff in Hres as [Hres | Hres];
    apply andb_true_iff in Hres as [Hname _];
    apply String.eqb_eq in Hname as ->;
    apply list_elem_of_In; cbn; auto.
Qed.

Lemma optional_not_bnb name : name ∈ optional_names → name ≠ "bnb".
Proof.
  unfold optional_names. intros Hin ->.
  repeat (apply elem_of_cons in Hin as [Hin | Hin]; [discriminate |]).
  by apply elem_of_nil in Hin.
Qed.

Lemma run_app ops1 ops2 st :
  run collab (ops1 ++ ops2) st = run collab ops2 (run collab ops1 st).
Proof.
  revert st. induction ops1 as [|o ops1 IH]; intros st; [reflexivity |].
  cbn. apply IH.
Qed.

(** After any history, an operation changes the state exactly when its
    request resolves, and then by the import of [.bnb]. *)
Lemma step_reachable pre ops o :
  state_of (step collab o (run collab ops (loaded collab pre))) =
    if resolves (op_caps o) (op_name o)
    then with_bnb (run collab ops (loaded collab pre))
    else run collab ops (loaded collab pre).
Proof.
  destruct o as [caps name | caps name]; cbn [step op_caps op_name].
  - destruct (resolves caps name) eqn:Hres.
    + pose proof (resolves_optional caps name Hres) as Hopt.
      rewrite (access_optional_enters_hook collab pre ops caps name Hopt).
      change (state_of (__getattr__ collab caps name
                          (run collab ops (loaded collab pre))) =
              with_bnb (run collab ops (loaded collab pre))).
      destruct (getattr_resolves collab caps name
                  (run collab ops (loaded collab pre))) as (_ & _ & ->).
      by rewrite Hres.
    + destruct (access_state collab caps name
                  (run collab ops (loaded collab pre))) as [Heq | Heq];
        [exact Heq |].
      destruct (globals (run collab ops (loaded collab pre)) !! name)
        as [v|] eqn:Hname.
      { by rewrite (access_bound collab caps name v _ Hname). }
      rewrite (access_unbound collab caps name (VFunction __name__ "__getattr__"));
        [| exact Hname | rewrite run_frame by discriminate; apply loaded_hook].
      change (state_of (__getattr__ collab caps name
                          (run collab ops (loaded collab pre))) =
              run collab ops (loaded collab pre)).
      destruct (getattr_resolves collab caps name
                  (run collab ops (loaded collab pre))) as (_ & _ & ->).
      by rewrite Hres.
  - by destruct (getattr_resolves collab caps name
                   (run collab ops (loaded collab pre))) as (_ & _ & ->).
Qed.

Lemma run_loaded pre ops :
  run collab ops (loaded collab pre) =
    if any_resolves ops then with_bnb (loaded collab pre) else loaded collab pre.
Proof.
  induction ops as [|o ops IH] using rev_ind; [reflexivity |].
  rewrite run_app. cbn [run]. rewrite step_reachable.
  unfold any_resolves in *. rewrite existsb_app. cbn [existsb].
  rewrite orb_false_r, IH.
  destruct (existsb _ ops), (resolves (op_caps o) (op_name o)); cbn;
    by rewrite ?with_bnb_idem.
Qed.

Lemma loaded_bnb_unbound pre : globals (loaded collab pre) !! "bnb" = None.
Proof.
  unfold loaded, exec_module, import_module, set_global, register_module,
    modify, emit, mbind, M_bind; cbn.
  repeat (rewrite import_submodule_run; cbn; case_bool_decide; cbn);
    by simplify_map_eq.
Qed.

Lemma run_loaded_bnb pre ops :
  globals (run collab ops (loaded collab pre)) !! "bnb" =
    (if any_resolves ops && negb (bool_decide (submodule "bnb" ∈ pre))
     then Some (VModule (submodule "bnb")) else None).
Proof.
  rewrite run_loaded. destruct (any_resolves ops); cbn;
    [| apply loaded_bnb_unbound].
  unfold with_bnb. case_bool_decide as Hpre; cbn.
  - rewrite decide_True by (by apply loaded_bnb). apply loaded_bnb_unbound.
  - rewrite decide_False by (by rewrite loaded_bnb). cbn.
    apply lookup_insert_eq.
Qed.

(** X2. The loaded module is in one of two states: as loading left it, as
    long as no request has resolved, and with [.bnb] imported from the first
    resolved request on. A later operation cannot undo the import, so its
    loaded modules are those of loading, with [.bnb] once a request resolved. *)
Theorem loaded_module_has_two_states pre ops :
  run collab ops (loaded collab pre) =
    (if any_resolves ops then with_bnb (loaded collab pre)
     else loaded collab pre) ∧
  sys_modules (run collab ops (loaded collab pre)) =
    (if any_resolves ops
     then {[submodule "bnb"]} ∪ sys_modules (loaded collab pre)
     else sys_modules (loaded collab pre)) ∧
  globals (run collab ops (loaded collab pre)) !! "bnb" =
    (if any_resolves ops && negb (bool_decide (submodule "bnb" ∈ pre))
     then Some (VModule (submodule "bnb")) else None).
Proof.
  split; [apply run_loaded |]. split; [| apply run_loaded_bnb].
  rewrite run_loaded. destruct (any_resolves ops); [| reflexivity].
  apply with_bnb_modules.
Qed.

End Reachable.

(** ** Attribute access on the loaded module, end to end *)

Section EndToEnd.

Variable collab : Collaborators.

(** X3. Nothing is cached. After loading and any history of operations,
    successful resolutions included, an access to a deferred name enters the
    hook, which asks the predicate of that name again: the access returns
    the type from [.bnb] when the predicate answers true now, and raises the
    unknown-attribute error when it answers false now. *)
Theorem deferred_access_asks_every_time pre ops caps :
  module_getattr collab caps "VeraLinear8bitLt"
                 (run collab ops (loaded collab pre)) =
    (if bnb_available caps
     then (Return (VClass (bnb_VeraLinear8bitLt collab)),
           with_bnb (run collab ops (loaded collab pre)),
           [EvFallback "VeraLinear8bitLt"; EvCall "is_bnb_available";
            EvImport "peft.tuners.vera.bnb"])
     else (Raise (unknown_attribute "VeraLinear8bitLt"),
           run collab ops (loaded collab pre),
           [EvFallback "VeraLinear8bitLt"; EvCall "is_bnb_available"])) ∧
  module_getattr collab caps "VeraLinear4bit"
                 (run collab ops (loaded collab pre)) =
    (if bnb_4bit_available caps
     then (Return (VClass (bnb_VeraLinear4bit collab)),
           with_bnb (run collab ops (loaded collab pre)),
           [EvFallback "VeraLinear4bit"; EvCall "is_bnb_4bit_available";
            EvImport "peft.tuners.vera.bnb"])
     else (Raise (unknown_attribute "VeraLinear4bit"),
           run collab ops (loaded collab pre),
           [EvFallback "VeraLinear4bit"; EvCall "is_bnb_4bit_available"])).
Proof.
  split.
  - rewrite access_optional_enters_hook
      by (apply list_elem_of_In; cbn; auto).
    rewrite getattr_8bit. by destruct (bnb_available caps).
  - rewrite access_optional_enters_hook
      by (apply list_elem_of_In; cbn; auto).
    rewrite getattr_4bit. by destruct (bnb_4bit_available caps).
Qed.



(** X5. The attribute [bnb] of the package depends on the history. As long
    as no request has resolved, an access to it ends in the hook's error;
    once a request has resolved (and [.bnb] was not loaded before the
    package), it returns the submodule, found in the namespace without
    entering the hook. *)
Theorem bnb_attribute_appears_on_resolution pre ops caps :
  module_getattr collab caps "bnb" (run collab ops (loaded collab pre)) =
    (if any_resolves ops && negb (bool_decide (submodule "bnb" ∈ pre))
     then (Return (VModule "peft.tuners.vera.bnb"),
           run collab ops (loaded collab pre), [])
     else (Raise (unknown_attribute "bnb"),
           run collab ops (loaded collab pre), [EvFallback "bnb"])).
Proof.
  pose proof (run_loaded_bnb collab pre ops) as Hbnb.
  destruct (any_resolves ops && negb (bool_decide (submodule "bnb" ∈ pre))).
  - by rewrite (access_bound collab caps "bnb" _ _ Hbnb).
  - rewrite (access_unbound collab caps "bnb" (VFunction __name__ "__getattr__")).
    + by rewrite getattr_other.
    + exact Hbnb.
    + rewrite run_frame by discriminate. apply loaded_hook.
Qed.

End EndToEnd.


(** ** What the operations call, keep and never do *)

Section Frame.

Variable collab : Collaborators.

(** X6. A call of the hook calls at most one predicate, and only the one of
    the requested name: [is_bnb_available] for ["VeraLinear8bitLt"],
    [is_bnb_4bit_available] for ["VeraLinear4bit"], none for any other name,
    in every state and whatever the predicates answer. *)
Theorem hook_calls_own_predicate_only caps name st :
  calls (events_of (__getattr__ collab caps name st)) =
    if String.eqb name "VeraLinear8bitLt" then ["is_bnb_available"]
    else if String.eqb name "VeraLinear4bit" then ["is_bnb_4bit_available"]
    else [].
Proof.
  destruct (decide (name = "VeraLinear8bitLt")) as [->|H8].
  { rewrite getattr_8bit. by destruct (bnb_available caps). }
  destruct (decide (name = "VeraLinear4bit")) as [->|H4].
  { rewrite getattr_4bit. by destruct (bnb_4bit_available caps). }
  rewrite getattr_other by done.
  apply String.eqb_neq in H8, H4. by rewrite H8, H4.
Qed.

Lemma with_bnb_modules_lower st : sys_modules st ⊆ sys_modules (with_bnb st).
Proof. rewrite with_bnb_modules. apply union_subseteq_r. Qed.

(** X7. Starting from any state, a sequence of accesses and hook calls
    never unloads a module and loads none but [.bnb], and it leaves every
    binding of the namespace other than [bnb] as it was. *)
Theorem operations_only_add_bnb ops st :
  sys_modules st ⊆ sys_modules (run collab ops st) ∧
  sys_modules (run collab ops st) ⊆ {[submodule "bnb"]} ∪ sys_modules st ∧
  delete "bnb" (globals (run collab ops st)) = delete "bnb" (globals st).
Proof.
  revert st. induction ops as [|o ops IH]; intros st.
  { cbn. split; [done |]. split; [apply union_subseteq_r | done]. }
  cbn [run]. destruct (IH (state_of (step collab o st))) as (Hlow & Hup & Hns).
  destruct (step_state collab o st) as [Heq | Heq]; rewrite Heq in *.
  - auto.
  - split; [| split].
    + etrans; [apply with_bnb_modules_lower | exact Hlow].
    + etrans; [exact Hup |]. rewrite with_bnb_modules.
      apply union_least; [apply union_subseteq_l | done].
    + by rewrite Hns, with_bnb_frame.
Qed.

(** X8. An access or a hook call that raises leaves the state exactly as
    it was and has imported nothing. *)
Theorem failed_operation_changes_nothing o st :
  is_return (result_of (step collab o st)) = false →
  state_of (step collab o st) = st ∧
  imports_bnb (events_of (step collab o st)) = false.
Proof.
  intros Hfail.
  pose proof (step_imports collab o st) as Himp.
  rewrite Hfail, andb_false_r in Himp. cbn in Himp.
  rewrite andb_true_r in Himp. split; [| exact Himp].
  destruct o as [caps name | caps name]; cbn [step] in *.
  - destruct (globals st !! name) as [v|] eqn:Hname.
    { by rewrite (access_bound collab caps name v st Hname). }
    destruct (globals st !! "__getattr__") as [h|] eqn:Hhook.
    + rewrite (access_unbound collab caps name h st Hname Hhook) in *.
      change (is_return (result_of (__getattr__ collab caps name st)) = false)
        in Hfail.
      change (state_of (__getattr__ collab caps name st) = st).
      destruct (getattr_resolves collab caps name st) as (Hret & _ & ->).
      by rewrite <- Hret, Hfail.
    + unfold module_getattr, get_global, gets, mbind, M_bind. cbn.
      by rewrite Hname, Hhook.
  - destruct (getattr_resolves collab caps name st) as (Hret & _ & ->).
    by rewrite <- Hret, Hfail.
Qed.

End Frame.

Lemma failed_operation_changes_nothing_witness :
  is_return (result_of (step sibling_classes (Access (Caps false true) "VeraLinear8bitLt")
                             (loaded sibling_classes ∅))) = false ∧
  (state_of (step sibling_classes (Access (Caps false true) "VeraLinear8bitLt")
                  (loaded sibling_classes ∅)) = loaded sibling_classes ∅ ∧
   imports_bnb (events_of (step sibling_classes
                                (Access (Caps false true) "VeraLinear8bitLt")
                                (loaded sibling_classes ∅))) = false).
Proof.
  assert (Hfail :
    is_return (result_of (step sibling_classes
                               (Access (Caps false true) "VeraLinear8bitLt")
                               (loaded sibling_classes ∅))) = false)
    by (vm_compute; reflexivity).
  split; [exact Hfail |].
  exact (failed_operation_changes_nothing sibling_classes
           (Access (Caps false true) "VeraLinear8bitLt")
           (loaded sibling_classes ∅) Hfail).
Defined.

(** ** Running the module body again *)

Section Again.

Variable collab : Collaborators.




End Again.

(** ** The error message identifies the name *)


